(** * ThousandEyes API test automation (d11/task-1/te_tests.py)

    A shallow embedding of the module [te_tests]: the decoded JSON values the
    functions inspect, the outside world they act on (the HTTP endpoint reached
    through [requests], the logger, the clock and the file system), the
    functions themselves, and the properties that the specification states
    about them. *)

From Stdlib Require Import String Ascii ZArith List Bool Lia.
From Stdlib Require Import Floats DecimalString.
Import ListNotations.

Local Open Scope string_scope.
Local Open Scope Z_scope.
Local Set Warnings "-register-all".

(** ** Python values *)

Module Py.

(** What [response.json()] yields: [None], [bool], [int], [float], [str],
    [list] and [dict].  A [dict] keeps its insertion order, which iteration
    and [json.dump] make visible, so it is an association list. *)
Inductive json : Type :=
| JNull
| JBool (b : bool)
| JInt (z : Z)
| JFloat (f : float)
| JStr (s : string)
| JArr (items : list json)
| JObj (fields : list (string * json)).

(** The exceptions that the modelled code can meet. *)
Inductive exn : Type :=
| KeyError (key : string)
| IndexError
| TypeError
| AttributeError
| ValueError
| OverflowError
| JSONDecodeError
| RequestException (msg : string)
| OSError (msg : string).

Fixpoint lookup (key : string) (fields : list (string * json)) : option json :=
  match fields with
  | [] => None
  | (k, v) :: rest => if String.eqb k key then Some v else lookup key rest
  end.

(** [bool(v)], the test behind [if v:] and [if not v:]. *)
Definition truthy (v : json) : bool :=
  match v with
  | JNull => false
  | JBool b => b
  | JInt z => negb (z =? 0)
  | JFloat f => negb (PrimFloat.eqb f 0%float)
  | JStr s => negb (String.eqb s "")
  | JArr items => match items with [] => false | _ :: _ => true end
  | JObj fields => match fields with [] => false | _ :: _ => true end
  end.

(** [v.get(key, default)]: only a [dict] has the method. *)
Definition get (v : json) (key : string) (default : json) : exn + json :=
  match v with
  | JObj fields =>
      inr (match lookup key fields with Some x => x | None => default end)
  | _ => inl AttributeError
  end.

(** [v[key]] with a string key. *)
Definition getitem (v : json) (key : string) : exn + json :=
  match v with
  | JObj fields =>
      match lookup key fields with
      | Some x => inr x
      | None => inl (KeyError key)
      end
  | _ => inl TypeError
  end.

(** [v[0]]. *)
Definition getitem0 (v : json) : exn + json :=
  match v with
  | JArr (x :: _) => inr x
  | JArr [] => inl IndexError
  | JStr (String c _) => inr (JStr (String c ""))
  | JStr EmptyString => inl IndexError
  | JObj _ => inl (KeyError "0")
  | _ => inl TypeError
  end.

Fixpoint chars (s : string) : list json :=
  match s with
  | EmptyString => []
  | String c rest => JStr (String c "") :: chars rest
  end.

(** The items that [for x in v] visits. *)
Definition iter (v : json) : exn + list json :=
  match v with
  | JArr items => inr items
  | JStr s => inr (chars s)
  | JObj fields => inr (map (fun kv => JStr (fst kv)) fields)
  | _ => inl TypeError
  end.

(** [v == s] for a [str] s. *)
Definition eq_str (v : json) (s : string) : bool :=
  match v with
  | JStr t => String.eqb t s
  | _ => false
  end.

(** The built-in conversions the module applies to decoded values.  They
    belong to the interpreter and the standard library, not to the module. *)
Class Builtins : Type := {
  (** [str(v)], as an f-string field [{v}] renders it *)
  str : json -> string;
  (** [int(v)] *)
  int : json -> exn + Z;
  (** [format(v, ".4f")] *)
  format_4f : json -> exn + string;
  (** [json.dumps(v, indent=n)], the text that [json.dump] writes *)
  dumps : nat -> json -> string
}.

(** [str(x)] for a global read with [os.getenv], which may be [None]. *)
Definition str_env (x : option string) : string :=
  match x with
  | Some s => s
  | None => "None"
  end.

End Py.

Import Py.

(** ** The outside world *)

(** A [requests.Response], as far as the module looks at it. *)
Record response : Type := {
  status_code : Z;
  text : string;
  headers : list (string * string);
  (** result of [response.json()] *)
  json_body : exn + json
}.

(** A call handed to [requests]. *)
Record request : Type := {
  req_method : string;
  req_url : string;
  req_headers : list (string * string);
  req_json : option json
}.

Inductive level : Type := INFO | WARNING | ERROR.

Record world : Type := {
  (** what the n-th network call of the run meets: a response, or an
      exception raised inside [requests] *)
  network : nat -> request -> exn + response;
  (** the network calls made so far, oldest first *)
  calls : list request;
  (** the arguments of [time.sleep] so far, oldest first *)
  sleeps : list Z;
  (** the records handed to [logger], oldest first *)
  log : list (level * string);
  (** whether [open(path, "w")] fails *)
  open_error : string -> option exn;
  (** the files written, newest first *)
  files : list (string * string)
}.

Definition add_call (q : request) (w : world) : world :=
  {| network := network w; calls := calls w ++ [q]; sleeps := sleeps w;
     log := log w; open_error := open_error w; files := files w |}.

Definition add_sleep (secs : Z) (w : world) : world :=
  {| network := network w; calls := calls w; sleeps := sleeps w ++ [secs];
     log := log w; open_error := open_error w; files := files w |}.

Definition add_log (l : level) (msg : string) (w : world) : world :=
  {| network := network w; calls := calls w; sleeps := sleeps w;
     log := log w ++ [(l, msg)]; open_error := open_error w;
     files := files w |}.

Definition add_file (path content : string) (w : world) : world :=
  {| network := network w; calls := calls w; sleeps := sleeps w;
     log := log w; open_error := open_error w;
     files := (path, content) :: files w |}.

(** ** Computations: state passing with exceptions *)

Inductive outcome (A : Type) : Type :=
| Returned (a : A)
| Raised (e : exn).
Arguments Returned {A} a.
Arguments Raised {A} e.

Definition M (A : Type) : Type := world -> outcome A * world.

Definition ret {A} (a : A) : M A := fun w => (Returned a, w).

Definition raise {A} (e : exn) : M A := fun w => (Raised e, w).

Definition bind {A B} (c : M A) (k : A -> M B) : M B :=
  fun w =>
    match c w with
    | (Returned a, w') => k a w'
    | (Raised e, w') => (Raised e, w')
    end.

Definition lift {A} (r : exn + A) : M A :=
  match r with
  | inl e => raise e
  | inr a => ret a
  end.

Notation "x <- c ;; k" := (bind c (fun x => k))
  (at level 61, c at next level, right associativity).
Notation "c ;;; k" := (bind c (fun _ => k))
  (at level 61, right associativity).

(** [logger.info], [logger.warning], [logger.error] *)
Definition logger_info (msg : string) : M unit :=
  fun w => (Returned tt, add_log INFO msg w).
Definition logger_warning (msg : string) : M unit :=
  fun w => (Returned tt, add_log WARNING msg w).
Definition logger_error (msg : string) : M unit :=
  fun w => (Returned tt, add_log ERROR msg w).

(** [time.sleep] *)
Definition time_sleep (secs : Z) : M unit :=
  fun w => (Returned tt, add_sleep secs w).

(** One network call: it is recorded, and it yields what the world answers to
    a call made at this point of the run. *)
Definition send (q : request) : M response :=
  fun w =>
    let w' := add_call q w in
    match network w (length (calls w)) q with
    | inl e => (Raised e, w')
    | inr r => (Returned r, w')
    end.

(** [requests.get(url, headers=h)] *)
Definition requests_get (url : string) (h : list (string * string))
  : M response :=
  send {| req_method := "GET"; req_url := url; req_headers := h;
          req_json := None |}.

(** [requests.post(url, headers=h, json=payload)] *)
Definition requests_post (url : string) (h : list (string * string))
  (payload : json) : M response :=
  send {| req_method := "POST"; req_url := url; req_headers := h;
          req_json := Some payload |}.

(** [response.ok]: [raise_for_status] raises for 400 <= status < 600. *)
Definition ok (r : response) : bool :=
  negb ((400 <=? status_code r) && (status_code r <? 600)).

(** [with open(path, "w") as f: f.write(content)] *)
Definition write_file (path content : string) : M unit :=
  fun w =>
    match open_error w path with
    | Some e => (Raised e, w)
    | None => (Returned tt, add_file path content w)
    end.

(** ** The module [te_tests] *)

(** The globals read from the environment at import time; [os.getenv] gives
    [None] for a variable that is not set. *)
Record config : Type := {
  TE_API_TOKEN : option string;
  TEST_NAME : option string;
  TARGET : option string
}.

Definition BASE_URL : string := "https://api.thousandeyes.com/v7".

Definition nl : string := String (ascii_of_nat 10) "".

Section TeTests.

Context {B : Builtins}.
Variable cfg : config.

Definition HEADERS : list (string * string) :=
  [("Authorization", "Bearer " ++ str_env (TE_API_TOKEN cfg));
   ("Content-Type", "application/json")].

Definition get_first_agent_id : M (option Z) :=
  logger_info "Attempting to fetch the first agent ID." ;;;
  response <- requests_get (BASE_URL ++ "/agents") HEADERS ;;
  if ok response then
    body <- lift (json_body response) ;;
    agents <- lift (get body "agents" (JArr [])) ;;
    if truthy agents then
      agent <- lift (getitem0 agents) ;;
      name <- lift (getitem agent "agentName") ;;
      id <- lift (getitem agent "agentId") ;;
      logger_info ("Successfully fetched agent: " ++ str name
                   ++ " (ID: " ++ str id ++ ")") ;;;
      id' <- lift (getitem agent "agentId") ;;
      n <- lift (int id') ;;
      ret (Some n)
    else
      logger_warning "No agents found in your account." ;;;
      ret None
  else
    logger_error ("Failed to fetch agents: "
                  ++ str (JInt (status_code response)) ++ " - "
                  ++ text response) ;;;
    ret None.

(** The [for test in ...] loop of [find_existing_test_id]: [Some n] when the
    body returns [n], [None] when the loop runs to its end. *)
Fixpoint find_loop (test_name : string) (tests : list json)
  : M (option Z) :=
  match tests with
  | [] => ret None
  | test :: rest =>
      name <- lift (get test "testName" JNull) ;;
      if eq_str name test_name then
        id <- lift (getitem test "testId") ;;
        logger_info ("Found existing test ID: " ++ str id) ;;;
        id' <- lift (getitem test "testId") ;;
        n <- lift (int id') ;;
        ret (Some n)
      else find_loop test_name rest
  end.

Definition find_existing_test_id (test_name : string) : M (option Z) :=
  logger_info ("Attempting to find existing test with name: '"
               ++ test_name ++ "'") ;;;
  response <- requests_get (BASE_URL ++ "/tests/http-server") HEADERS ;;
  if ok response then
    body <- lift (json_body response) ;;
    tests <- lift (get body "tests" (JArr [])) ;;
    items <- lift (iter tests) ;;
    found <- find_loop test_name items ;;
    match found with
    | Some n => ret (Some n)
    | None =>
        logger_info ("No existing test named '" ++ test_name
                     ++ "' found.") ;;;
        ret None
    end
  else
    logger_error ("Failed to retrieve tests: "
                  ++ str (JInt (status_code response)) ++ " - "
                  ++ text response) ;;;
    ret None.

Definition create_test (test_name target : string) (agent_id interval : Z)
  : M (option Z) :=
  logger_info ("Attempting to create a new test: '" ++ test_name ++ "'") ;;;
  let payload :=
    JObj [("testName", JStr test_name);
          ("type", JStr "agent-to-server");
          ("url", JStr target);
          ("interval", JInt interval);
          ("protocol", JStr "ICMP");
          ("enabled", JBool true);
          ("agents", JArr [JObj [("agentId", JInt agent_id)]])] in
  response <- requests_post (BASE_URL ++ "/tests/http-server") HEADERS
                payload ;;
  if status_code response =? 201 then
    body <- lift (json_body response) ;;
    test_id <- lift (get body "testId" JNull) ;;
    logger_info ("Successfully created test '" ++ test_name ++ "' (ID: "
                 ++ str test_id ++ ")") ;;;
    n <- lift (int test_id) ;;
    ret (Some n)
  else
    logger_error ("Error creating test: "
                  ++ str (JInt (status_code response)) ++ " - "
                  ++ text response) ;;;
    ret None.

(** The default of the parameter [interval]. *)
Definition default_interval : Z := 3600.

(** The result is the decoded body, or [None], which is [JNull]. *)
Definition get_test_results (test_id : Z) : M json :=
  logger_info ("Attempting to fetch test results for test ID: "
               ++ str (JInt test_id)) ;;;
  response <- requests_get (BASE_URL ++ "/test-results/"
                            ++ str (JInt test_id) ++ "/http-server")
                HEADERS ;;
  if ok response then
    logger_info ("Successfully fetched test results for test ID "
                 ++ str (JInt test_id)) ;;;
    body <- lift (json_body response) ;;
    ret body
  else
    logger_error ("Failed to retrieve test results: "
                  ++ str (JInt (status_code response)) ++ " - "
                  ++ text response) ;;;
    ret JNull.

(** The text logged by [analyze_results] for the record [result]; the fields
    are evaluated left to right, as the f-string does. *)
Definition summary (result : json) : M string :=
  agent <- lift (getitem result "agent") ;;
  agent_name <- lift (getitem agent "agentName") ;;
  agent' <- lift (getitem result "agent") ;;
  agent_id <- lift (getitem agent' "agentId") ;;
  date <- lift (getitem result "date") ;;
  response_code <- lift (get result "responseCode" JNull) ;;
  response_time <- lift (get result "responseTime" JNull) ;;
  redirect_time <- lift (get result "redirectTime" JNull) ;;
  dns_time <- lift (get result "dnsTime" JNull) ;;
  ssl_time <- lift (get result "sslTime" JNull) ;;
  connect_time <- lift (get result "connectTime" JNull) ;;
  wait_time <- lift (get result "waitTime" JNull) ;;
  receive_time <- lift (get result "receiveTime" JNull) ;;
  total_time <- lift (get result "totalTime" JNull) ;;
  throughput <- lift (get result "throughput" JNull) ;;
  wire_size <- lift (get result "wireSize" JNull) ;;
  server_ip <- lift (get result "serverIp" JNull) ;;
  ssl_cipher <- lift (get result "sslCipher" JNull) ;;
  ssl_version <- lift (get result "sslVersion" JNull) ;;
  health_score <- lift (get result "healthScore" (JInt 0)) ;;
  health <- lift (format_4f health_score) ;;
  ret (String.concat nl
    [""; "========== HTTP SERVER TEST RESULTS ==========";
     "Test Name     : " ++ str_env (TEST_NAME cfg);
     "Agent         : " ++ str agent_name ++ " (ID: " ++ str agent_id ++ ")";
     "Test Date     : " ++ str date;
     "Target URL    : " ++ str_env (TARGET cfg);
     "----------------------------------------------";
     "Response Code : " ++ str response_code;
     "Response Time : " ++ str response_time ++ " ms";
     "Redirect Time : " ++ str redirect_time ++ " ms";
     "DNS Time      : " ++ str dns_time ++ " ms";
     "SSL Time      : " ++ str ssl_time ++ " ms";
     "Connect Time  : " ++ str connect_time ++ " ms";
     "Wait Time     : " ++ str wait_time ++ " ms";
     "Receive Time  : " ++ str receive_time ++ " ms";
     "Total Time    : " ++ str total_time ++ " ms";
     "Throughput    : " ++ str throughput ++ " bytes/sec";
     "Wire Size     : " ++ str wire_size ++ " bytes";
     "Server IP     : " ++ str server_ip;
     "SSL Cipher    : " ++ str ssl_cipher;
     "SSL Version   : " ++ str ssl_version;
     "Health Score  : " ++ health;
     "=============================================="; ""]).

Definition analyze_results (results : json) : M unit :=
  logger_info "Analyzing test results." ;;;
  entries <- lift (get results "results" (JArr [])) ;;
  if negb (truthy entries) then
    logger_warning "No HTTP Server test results available for analysis."
  else
    result <- lift (getitem0 entries) ;;
    output <- summary result ;;
    logger_info output.

Definition save_report (test_name : string) (results : json) : M unit :=
  let filename := test_name ++ "_report.json" in
  write_file filename (dumps 2 results) ;;;
  logger_info ("Report saved to: " ++ filename).

(** The body is the single statement [pass]: the function returns [None]. *)
Definition api_request (method endpoint : string) (json_data : option json)
  (params : option json) : M (option response) :=
  ret None.

End TeTests.

(** ** The entry point

    [main] hands the globals [TEST_NAME] and [TARGET] to the functions above.
    [os.getenv] leaves a global [None] when the variable is not set, so the
    functions that receive one are taken here at an argument that is a [str]
    or [None]; at a [str] they are the functions above. *)

(** The value of a global: a [str] or [None]. *)
Definition env_value (x : option string) : json :=
  match x with
  | Some s => JStr s
  | None => JNull
  end.

(** [v == x] for a global [x]: only [None] equals [None]. *)
Definition eq_env (v : json) (x : option string) : bool :=
  match x with
  | Some s => eq_str v s
  | None => match v with JNull => true | _ => false end
  end.

(** How a run of [main] ends when no exception escapes: it falls off the end
    of the function, or it calls [sys.exit(code)], which nothing in the
    module intercepts. *)
Inductive termination : Type :=
| Completed
| Exit (code : Z).

Section Main.

Context {B : Builtins}.
Variable cfg : config.

Fixpoint find_loop_env (test_name : option string) (tests : list json)
  : M (option Z) :=
  match tests with
  | [] => ret None
  | test :: rest =>
      name <- lift (get test "testName" JNull) ;;
      if eq_env name test_name then
        id <- lift (getitem test "testId") ;;
        logger_info ("Found existing test ID: " ++ str id) ;;;
        id' <- lift (getitem test "testId") ;;
        n <- lift (int id') ;;
        ret (Some n)
      else find_loop_env test_name rest
  end.

Definition find_existing_test_id_env (test_name : option string)
  : M (option Z) :=
  logger_info ("Attempting to find existing test with name: '"
               ++ str_env test_name ++ "'") ;;;
  response <- requests_get (BASE_URL ++ "/tests/http-server") (HEADERS cfg) ;;
  if ok response then
    body <- lift (json_body response) ;;
    tests <- lift (get body "tests" (JArr [])) ;;
    items <- lift (iter tests) ;;
    found <- find_loop_env test_name items ;;
    match found with
    | Some n => ret (Some n)
    | None =>
        logger_info ("No existing test named '" ++ str_env test_name
                     ++ "' found.") ;;;
        ret None
    end
  else
    logger_error ("Failed to retrieve tests: "
                  ++ str (JInt (status_code response)) ++ " - "
                  ++ text response) ;;;
    ret None.

(** The payload that [create_test] builds. *)
Definition create_payload (test_name target : option string)
  (agent_id interval : Z) : json :=
  JObj [("testName", env_value test_name);
        ("type", JStr "agent-to-server");
        ("url", env_value target);
        ("interval", JInt interval);
        ("protocol", JStr "ICMP");
        ("enabled", JBool true);
        ("agents", JArr [JObj [("agentId", JInt agent_id)]])].

Definition create_test_env (test_name target : option string)
  (agent_id interval : Z) : M (option Z) :=
  logger_info ("Attempting to create a new test: '" ++ str_env test_name
               ++ "'") ;;;
  let payload := create_payload test_name target agent_id interval in
  response <- requests_post (BASE_URL ++ "/tests/http-server") (HEADERS cfg)
                payload ;;
  if status_code response =? 201 then
    body <- lift (json_body response) ;;
    test_id <- lift (get body "testId" JNull) ;;
    logger_info ("Successfully created test '" ++ str_env test_name
                 ++ "' (ID: " ++ str test_id ++ ")") ;;;
    n <- lift (int test_id) ;;
    ret (Some n)
  else
    logger_error ("Error creating test: "
                  ++ str (JInt (status_code response)) ++ " - "
                  ++ text response) ;;;
    ret None.

Definition save_report_env (test_name : option string) (results : json)
  : M unit :=
  let filename := str_env test_name ++ "_report.json" in
  write_file filename (dumps 2 results) ;;;
  logger_info ("Report saved to: " ++ filename).

Definition main : M termination :=
  logger_info "Starting ThousandEyes test automation..." ;;;
  agent_id <- get_first_agent_id cfg ;;
  match agent_id with
  | None =>
      logger_error "No valid agent available. Exiting." ;;;
      ret (Exit 1)
  | Some agent_id =>
      test_id <- find_existing_test_id_env (TEST_NAME cfg) ;;
      chosen <-
        match test_id with
        | Some id =>
            logger_info ("Found existing test ID: " ++ str (JInt id)) ;;;
            ret (Some id, false)
        | None =>
            logger_info ("No existing test named '"
                         ++ str_env (TEST_NAME cfg)
                         ++ "' found. Creating a new test...") ;;;
            created <- create_test_env (TEST_NAME cfg) (TARGET cfg) agent_id
                         default_interval ;;
            ret (created, true)
        end ;;
      match chosen with
      | (None, _) =>
          logger_error "Test creation failed. Exiting." ;;;
          ret (Exit 1)
      | (Some test_id, is_new) =>
          (if is_new : bool then
             logger_info "Waiting 90 seconds for the first test result to become available..." ;;;
             time_sleep 90
           else ret tt) ;;;
          results <- get_test_results cfg test_id ;;
          if truthy results then
            analyze_results cfg results ;;;
            save_report_env (TEST_NAME cfg) results ;;;
            ret Completed
          else
            logger_error "No results returned. Exiting." ;;;
            ret (Exit 1)
      end
  end.

End Main.

(** ** Sample data

    The fixtures of the unit tests (class [TestData]) and worlds to run the
    module in. *)

Module Sample.

Definition str_Z (z : Z) : string := NilZero.string_of_int (Z.to_int z).

Definition int_str (s : string) : exn + Z :=
  match s with
  | EmptyString => inl ValueError
  | _ =>
      match NilZero.int_of_string s with
      | Some d => inr (Z.of_int d)
      | None => inl ValueError
      end
  end.

(** Conversions for [None], [bool], [int] and [str] values written with
    decimal digits, which is all the sample data holds; they stand for the
    interpreter's on those values only, and answer ["?"] or [TypeError]
    elsewhere. *)
#[local] Instance builtins : Builtins := {|
  str v :=
    match v with
    | JNull => "None"
    | JBool true => "True"
    | JBool false => "False"
    | JInt z => str_Z z
    | JStr s => s
    | _ => "?"
    end;
  int v :=
    match v with
    | JBool true => inr 1
    | JBool false => inr 0
    | JInt z => inr z
    | JStr s => int_str s
    | _ => inl TypeError
    end;
  format_4f v :=
    match v with
    | JBool true => inr "1.0000"
    | JBool false => inr "0.0000"
    | JInt z => inr (str_Z z ++ ".0000")
    | JStr _ => inl ValueError
    | _ => inl TypeError
    end;
  dumps _ v :=
    match v with
    | JNull => "null"
    | JBool true => "true"
    | JBool false => "false"
    | JInt z => str_Z z
    | _ => "?"
    end
|}.

Definition ENV : config :=
  {| TE_API_TOKEN := Some "mock-token-123";
     TEST_NAME := Some "Cisco.com Test";
     TARGET := Some "https://cisco.com" |}.

Definition AGENT_DATA : json :=
  JObj [("agents",
         JArr [JObj [("agentId", JStr "3"); ("agentName", JStr "Singapore");
                     ("countryId", JStr "SG")]])].

Definition TESTS_DATA : json :=
  JObj [("tests",
         JArr [JObj [("interval", JInt 3600);
                     ("testId", JStr "6969142");
                     ("testName", JStr "Cisco.com Test");
                     ("createdBy", JStr "Student (student@cisco.com)");
                     ("createdDate", JStr "2025-04-10T13:42:26Z");
                     ("type", JStr "http-server");
                     ("enabled", JBool true);
                     ("url", JStr "https://cisco.com")]])].

Definition RESULT : json :=
  JObj [("agent",
         JObj [("agentId", JStr "3"); ("agentName", JStr "Singapore");
               ("countryId", JStr "SG")]);
        ("date", JStr "2025-04-10T15:20:39Z");
        ("responseCode", JInt 200);
        ("responseTime", JInt 125);
        ("redirectTime", JInt 1741);
        ("dnsTime", JInt 90);
        ("sslTime", JInt 8);
        ("connectTime", JInt 4);
        ("waitTime", JInt 23);
        ("receiveTime", JInt 1);
        ("totalTime", JInt 126);
        ("throughput", JInt 16682395);
        ("wireSize", JInt 18384);
        ("serverIp", JStr "23.54.57.29");
        ("sslCipher", JStr "TLS_AES_256_GCM_SHA384");
        ("sslVersion", JStr "TLSv1.3");
        ("healthScore", JInt 1)].

(** A response with a status and no body to decode. *)
Definition plain (status : Z) : response :=
  {| status_code := status; text := ""; headers := [];
     json_body := inl JSONDecodeError |}.

(** A response with status 200 and the body [v]. *)
Definition success (v : json) : response :=
  {| status_code := 200; text := ""; headers := []; json_body := inr v |}.

(** The 429 of the unit test [test_rate_limit_handling]. *)
Definition rate_limited : response :=
  {| status_code := 429; text := "";
     headers := [("X-Organization-Rate-Limit-Reset", "60")];
     json_body := inl JSONDecodeError |}.

(** A server that answers the calls of the run with [script], in order. *)
Definition scripted (script : list response) (n : nat) (_ : request)
  : exn + response :=
  match nth_error script n with
  | Some r => inr r
  | None => inl (RequestException "connection closed")
  end.

(** A server that answers every call with [r]. *)
Definition always (r : response) (_ : nat) (_ : request) : exn + response :=
  inr r.

(** The world at the start of a run. *)
Definition fresh (net : nat -> request -> exn + response) : world :=
  {| network := net; calls := []; sleeps := []; log := [];
     open_error := fun _ => None; files := [] |}.

End Sample.

(** ** Vocabulary of the properties *)

(** The calls that the collaborators make. *)
Definition agents_request (cfg : config) : request :=
  {| req_method := "GET"; req_url := BASE_URL ++ "/agents";
     req_headers := HEADERS cfg; req_json := None |}.

Definition tests_request (cfg : config) : request :=
  {| req_method := "GET"; req_url := BASE_URL ++ "/tests/http-server";
     req_headers := HEADERS cfg; req_json := None |}.

(** A test record is a [dict]. *)
Definition is_record (t : json) : bool :=
  match t with
  | JObj _ => true
  | _ => false
  end.

(** The record [t] has a name field equal to [test_name]. *)
Definition named (test_name : string) (t : json) : bool :=
  match t with
  | JObj fields =>
      match lookup "testName" fields with
      | Some name => eq_str name test_name
      | None => false
      end
  | _ => false
  end.

(** The world [w] with the server out of reach: every call raises [e]. *)
Definition offline (e : exn) (w : world) : world :=
  {| network := fun _ _ => inl e; calls := calls w; sleeps := sleeps w;
     log := log w; open_error := open_error w; files := files w |}.

(** The computation [c] lets [e] escape, having logged its opening line and
    nothing else. *)
Definition propagates {A} (c : M A) (e : exn) (w : world)
  (opening : string) : Prop :=
  fst (c w) = Raised e /\ log (snd (c w)) = (log w ++ [(INFO, opening)])%list.

(** The world [w] with every [open(path, "w")] failing with [e]. *)
Definition write_protected (e : exn) (w : world) : world :=
  {| network := network w; calls := calls w; sleeps := sleeps w;
     log := log w; open_error := fun _ => Some e; files := files w |}.

(** The calls that creation and result retrieval make. *)
Definition create_request (cfg : config) (test_name target : option string)
  (agent_id interval : Z) : request :=
  {| req_method := "POST"; req_url := BASE_URL ++ "/tests/http-server";
     req_headers := HEADERS cfg;
     req_json := Some (create_payload test_name target agent_id interval) |}.

Definition results_request {B : Builtins} (cfg : config) (test_id : Z)
  : request :=
  {| req_method := "GET";
     req_url := BASE_URL ++ "/test-results/" ++ str (JInt test_id)
                ++ "/http-server";
     req_headers := HEADERS cfg; req_json := None |}.

(** What a computation has done between [w] and [w']: the calls [cs] and the
    sleeps [ss], oldest first, the writes [fs], newest first, and some log
    records; the server and the file system answer as before. *)
Definition grows (w w' : world) (cs : list request) (ss : list Z)
  (fs : list (string * string)) : Prop :=
  network w' = network w
  /\ open_error w' = open_error w
  /\ calls w' = (calls w ++ cs)%list
  /\ sleeps w' = (sleeps w ++ ss)%list
  /\ files w' = (fs ++ files w)%list
  /\ exists ms, log w' = (log w ++ ms)%list.

(** A computation that does nothing but log. *)
Definition only_logs {A} (c : M A) : Prop :=
  forall w, grows w (snd (c w)) [] [] [].

(** A computation that makes the one call [q] and otherwise only logs. *)
Definition one_call {A} (q : request) (c : M A) : Prop :=
  forall w, grows w (snd (c w)) [q] [] [].

(** The report as [main] leaves it: written exactly when the run completes. *)
Definition reported {B : Builtins} (cfg : config)
  (fs : list (string * string)) (o : outcome termination) : Prop :=
  (fs = [] /\ o <> Returned Completed)
  \/ (exists results,
        fs = [(str_env (TEST_NAME cfg) ++ "_report.json", dumps 2 results)]
        /\ o = Returned Completed).

(** The runs of [main], by the calls [cs] that follow the agents call, the
    sleeps [ss] and the writes [fs]: the run stops after the agents call; or
    after the tests call; or it finds the test and fetches its results; or it
    fails to create the test; or it creates the test, waits and fetches. *)
Definition main_trace {B : Builtins} (cfg : config)
  (o : outcome termination) (cs : list request) (ss : list Z)
  (fs : list (string * string)) : Prop :=
  (cs = [] /\ ss = [] /\ fs = [] /\ o <> Returned Completed)
  \/ (cs = [tests_request cfg] /\ ss = [] /\ fs = []
      /\ o <> Returned Completed)
  \/ (exists id,
        cs = [tests_request cfg; results_request cfg id] /\ ss = []
        /\ reported cfg fs o)
  \/ (exists a,
        cs = [tests_request cfg;
              create_request cfg (TEST_NAME cfg) (TARGET cfg) a
                default_interval]
        /\ ss = [] /\ fs = [] /\ o <> Returned Completed)
  \/ (exists a id,
        cs = [tests_request cfg;
              create_request cfg (TEST_NAME cfg) (TARGET cfg) a
                default_interval;
              results_request cfg id]
        /\ ss = [90] /\ reported cfg fs o).

(** ** Running a computation *)

Lemma bind_returned {A B} (c : M A) (k : A -> M B) w a w' :
  c w = (Returned a, w') -> bind c k w = k a w'.
Proof. intros E. unfold bind. rewrite E. reflexivity. Qed.

Lemma send_response q w r :
  network w (length (calls w)) q = inr r ->
  send q w = (Returned r, add_call q w).
Proof. intros E. unfold send. rewrite E. reflexivity. Qed.

Section Properties.

Context {B : Builtins}.
Variable cfg : config.

(** *** Agent lookup *)

(** C8.  When the agents call is answered by a successful response whose body
    has an empty [agents] array, [get_first_agent_id] returns [None] without
    raising, and what it logs after its opening line is the warning that no
    agents were found. *)
Theorem get_first_agent_id_empty_agents (w : world) (r : response)
  (fields : list (string * json)) :
  network w (length (calls w)) (agents_request cfg) = inr r ->
  ok r = true ->
  json_body r = inr (JObj fields) ->
  lookup "agents" fields = Some (JArr []) ->
  get_first_agent_id cfg w =
    (Returned None,
     add_log WARNING "No agents found in your account."
       (add_call (agents_request cfg)
          (add_log INFO "Attempting to fetch the first agent ID." w))).
Proof.
  intros Hnet Hok Hbody Hagents.
  unfold get_first_agent_id, requests_get.
  rewrite (bind_returned (logger_info _) _ w tt _ eq_refl).
  erewrite bind_returned by (apply send_response; exact Hnet).
  rewrite Hok, Hbody.
  cbn [bind lift ret get]. rewrite Hagents.
  reflexivity.
Qed.

(** *** Test lookup *)

(** What the loop reads from a record that does not carry the name. *)
Lemma get_name_other (test_name : string) (t : json) :
  is_record t = true ->
  named test_name t = false ->
  exists name,
    get t "testName" JNull = inr name /\ eq_str name test_name = false.
Proof.
  destruct t as [ | | | | | | fields]; try discriminate.
  intros _. unfold named, get.
  destruct (lookup "testName" fields) as [name|]; intros Hname.
  - exists name. split; [reflexivity | exact Hname].
  - exists JNull. split; reflexivity.
Qed.

Lemma get_name_match (test_name : string) (t : json) :
  named test_name t = true ->
  exists name,
    get t "testName" JNull = inr name /\ eq_str name test_name = true.
Proof.
  destruct t as [ | | | | | | fields]; try discriminate.
  unfold named, get.
  destruct (lookup "testName" fields) as [name|]; [|discriminate].
  intros Hname. exists name. split; [reflexivity | exact Hname].
Qed.

(** The loop steps over a record with another name. *)
Lemma find_loop_skip (test_name : string) (t : json) (rest : list json)
  (w : world) :
  is_record t = true ->
  named test_name t = false ->
  find_loop test_name (t :: rest) w = find_loop test_name rest w.
Proof.
  intros Hrec Hname.
  destruct (get_name_other test_name t Hrec Hname) as (name & Hget & Hneq).
  cbn [find_loop]. rewrite Hget. cbn [bind lift ret]. rewrite Hneq.
  reflexivity.
Qed.

(** Records with other names only: the loop runs to its end, silently. *)
Lemma find_loop_no_match (test_name : string) (tests : list json)
  (w : world) :
  Forall (fun t => is_record t = true /\ named test_name t = false) tests ->
  find_loop test_name tests w = (Returned None, w).
Proof.
  induction 1 as [ | t rest [Hrec Hname] _ IH].
  - reflexivity.
  - rewrite find_loop_skip by assumption. exact IH.
Qed.

(** The loop returns at the first record that carries the name. *)
Lemma find_loop_first_match (test_name : string) (pre post : list json)
  (t id : json) (n : Z) (w : world) :
  Forall (fun t => is_record t = true /\ named test_name t = false) pre ->
  named test_name t = true ->
  getitem t "testId" = inr id ->
  int id = inr n ->
  find_loop test_name (pre ++ t :: post) w =
    (Returned (Some n), add_log INFO ("Found existing test ID: " ++ str id) w).
Proof.
  intros Hpre Hname Hid Hint.
  induction Hpre as [ | t' rest [Hrec' Hname'] _ IH].
  - destruct (get_name_match test_name t Hname) as (name & Hget & Heq).
    cbn [app find_loop]. rewrite Hget. cbn [bind lift ret]. rewrite Heq.
    rewrite Hid. cbn [bind lift ret logger_info]. rewrite Hint.
    reflexivity.
  - cbn [app]. rewrite find_loop_skip by assumption. exact IH.
Qed.

(** C7.  For a successful tests-list response (its body holds the list
    [tests] of records): when no record carries the name [test_name],
    [find_existing_test_id] returns [None]; when some record does, the
    function returns the [testId] of the first such record, converted by
    [int]. *)
Theorem find_existing_test_id_lookup (test_name : string) (w : world)
  (r : response) (fields : list (string * json)) (tests : list json) :
  network w (length (calls w)) (tests_request cfg) = inr r ->
  ok r = true ->
  json_body r = inr (JObj fields) ->
  lookup "tests" fields = Some (JArr tests) ->
  let w1 :=
    add_call (tests_request cfg)
      (add_log INFO ("Attempting to find existing test with name: '"
                     ++ test_name ++ "'") w) in
  (Forall (fun t => is_record t = true /\ named test_name t = false) tests ->
   find_existing_test_id cfg test_name w =
     (Returned None,
      add_log INFO ("No existing test named '" ++ test_name ++ "' found.")
        w1))
  /\
  (forall (pre post : list json) (t id : json) (n : Z),
     tests = (pre ++ t :: post)%list ->
     Forall (fun t => is_record t = true /\ named test_name t = false) pre ->
     named test_name t = true ->
     getitem t "testId" = inr id ->
     int id = inr n ->
     find_existing_test_id cfg test_name w =
       (Returned (Some n),
        add_log INFO ("Found existing test ID: " ++ str id) w1)).
Proof.
  intros Hnet Hok Hbody Htests w1.
  assert (Hrun :
            find_existing_test_id cfg test_name w =
            (found <- find_loop test_name tests ;;
             match found with
             | Some n => ret (Some n)
             | None =>
                 logger_info ("No existing test named '" ++ test_name
                              ++ "' found.") ;;;
                 ret None
             end) w1).
  { unfold find_existing_test_id, requests_get.
    rewrite (bind_returned (logger_info _) _ w tt _ eq_refl).
    erewrite bind_returned by (apply send_response; exact Hnet).
    rewrite Hok, Hbody. cbn [bind lift ret get]. rewrite Htests.
    reflexivity. }
  split.
  - intros Hnone. rewrite Hrun.
    erewrite bind_returned by (apply find_loop_no_match; exact Hnone).
    reflexivity.
  - intros pre post t id n -> Hpre Hname Hid Hint. rewrite Hrun.
    erewrite bind_returned
      by (eapply find_loop_first_match; eassumption).
    reflexivity.
Qed.

(** *** Result analysis *)

(** With a non-empty [results] array, the function is its opening line
    followed by the summary of the first entry. *)
Lemma analyze_results_first (fields : list (string * json))
  (first : json) (rest : list json) (w : world) :
  lookup "results" fields = Some (JArr (first :: rest)) ->
  analyze_results cfg (JObj fields) w =
    (output <- summary cfg first ;; logger_info output)
      (add_log INFO "Analyzing test results." w).
Proof.
  intros Hresults. unfold analyze_results.
  rewrite (bind_returned (logger_info _) _ w tt _ eq_refl).
  cbn [get]. rewrite Hresults. reflexivity.
Qed.

(** C10.  Two results objects whose [results] arrays are non-empty and
    start with the same entry lead [analyze_results] to the same outcome and
    the same log, hence the same summary, whatever follows the first entry
    and whatever else the objects hold. *)
Theorem analyze_results_first_entry_only
  (fields1 fields2 : list (string * json)) (first : json)
  (rest1 rest2 : list json) (w : world) :
  lookup "results" fields1 = Some (JArr (first :: rest1)) ->
  lookup "results" fields2 = Some (JArr (first :: rest2)) ->
  analyze_results cfg (JObj fields1) w = analyze_results cfg (JObj fields2) w.
Proof.
  intros H1 H2.
  rewrite (analyze_results_first fields1 first rest1 w H1).
  rewrite (analyze_results_first fields2 first rest2 w H2).
  reflexivity.
Qed.

(** *** Errors raised by the request layer *)

(** C6 fails on the code.  None of the four collaborators has a handler
    around its call to [requests]: with the server out of reach, the error
    raised by the request layer leaves each of them uncaught, and no error
    message is logged. *)
Theorem collaborators_propagate_request_error (e : exn) (w : world)
  (test_name target : string) (agent_id interval test_id : Z) :
  propagates (get_first_agent_id cfg) e (offline e w)
    "Attempting to fetch the first agent ID."
  /\ propagates (find_existing_test_id cfg test_name) e (offline e w)
       ("Attempting to find existing test with name: '" ++ test_name ++ "'")
  /\ propagates (create_test cfg test_name target agent_id interval) e
       (offline e w)
       ("Attempting to create a new test: '" ++ test_name ++ "'")
  /\ propagates (get_test_results cfg test_id) e (offline e w)
       ("Attempting to fetch test results for test ID: "
        ++ str (JInt test_id)).
Proof.
  repeat split; reflexivity.
Qed.

End Properties.

(** *** Report persistence *)

Section Report.

Context {B : Builtins}.

(** When the file can be opened, [save_report] writes the serialization with
    indent 2 under the name [test_name ++ "_report.json"] and logs it. *)
Lemma save_report_writes (test_name : string) (results : json) (w : world) :
  open_error w (test_name ++ "_report.json") = None ->
  save_report test_name results w =
    (Returned tt,
     add_log INFO ("Report saved to: " ++ test_name ++ "_report.json")
       (add_file (test_name ++ "_report.json") (dumps 2 results) w)).
Proof.
  intros Hopen. unfold save_report, bind, write_file. rewrite Hopen.
  reflexivity.
Qed.

(** C9 fails on the code.  [save_report] has no handler around [open]: when
    the file cannot be opened for writing, the error leaves the function
    uncaught, and nothing is logged or written. *)
Theorem save_report_write_failure_propagates (e : exn) (test_name : string)
  (results : json) (w : world) :
  save_report test_name results (write_protected e w) =
    (Raised e, write_protected e w).
Proof.
  reflexivity.
Qed.

End Report.

(** *** The request executor *)

(** C5 fails on the code.  Whatever it is called with and whatever the server
    would answer, [api_request] returns [None]: never a response, never a
    raised error; it leaves the world as it found it. *)
Theorem api_request_returns_none (method endpoint : string)
  (json_data params : option json) (w : world) :
  api_request method endpoint json_data params w = (Returned None, w).
Proof.
  reflexivity.
Qed.

(** C1 fails on the code.  Facing a server whose first answer is 200,
    [api_request] returns [None] instead of that response, and no network
    call is made. *)
Theorem api_request_first_2xx_no_call :
  let w := Sample.fresh (Sample.scripted [Sample.plain 200]) in
  let run := api_request "GET" "agents" None None w in
  fst run = Returned None
  /\ fst run <> Returned (Some (Sample.plain 200))
  /\ length (calls (snd run)) = 0%nat
  /\ sleeps (snd run) = [].
Proof.
  cbv zeta. repeat split. discriminate.
Qed.

(** C2 fails on the code.  Facing a server that answers 429 with a reset hint
    of 60 and then 200, [api_request] makes no call, does not sleep, and
    returns [None] instead of the second response. *)
Theorem api_request_rate_limit_no_wait :
  let w := Sample.fresh
             (Sample.scripted [Sample.rate_limited; Sample.plain 200]) in
  let run := api_request "GET" "agents" None None w in
  fst run = Returned None
  /\ fst run <> Returned (Some (Sample.plain 200))
  /\ length (calls (snd run)) = 0%nat
  /\ sleeps (snd run) = []
  /\ sleeps (snd run) <> [60].
Proof.
  cbv zeta. repeat split; discriminate.
Qed.

(** C3 fails on the code.  Facing a server that answers 500 to every call,
    [api_request] makes no call, does not sleep, and returns [None] instead
    of raising. *)
Theorem api_request_server_error_no_retry :
  let w := Sample.fresh (Sample.always (Sample.plain 500)) in
  let run := api_request "GET" "agents" None None w in
  fst run = Returned None
  /\ (forall e, fst run <> Raised e)
  /\ length (calls (snd run)) = 0%nat
  /\ sleeps (snd run) = []
  /\ sleeps (snd run) <> [1; 2].
Proof.
  cbv zeta. repeat split; discriminate.
Qed.

(** C4 fails on the code.  Facing a server that answers 404, [api_request]
    makes no call and returns [None] instead of raising. *)
Theorem api_request_client_error_no_raise :
  let w := Sample.fresh (Sample.scripted [Sample.plain 404]) in
  let run := api_request "GET" "agents" None None w in
  fst run = Returned None
  /\ (forall e, fst run <> Raised e)
  /\ length (calls (snd run)) = 0%nat
  /\ sleeps (snd run) = [].
Proof.
  cbv zeta. repeat split; discriminate.
Qed.

(** ** The module on the sample data *)

(** The run of the unit test [test_successful_agent_retrieval]. *)
Example agent_retrieval :
  let run := get_first_agent_id (B := Sample.builtins) Sample.ENV
               (Sample.fresh (Sample.always (Sample.success Sample.AGENT_DATA)))
  in
  fst run = Returned (Some 3)
  /\ log (snd run) =
       [(INFO, "Attempting to fetch the first agent ID.");
        (INFO, "Successfully fetched agent: Singapore (ID: 3)")]
  /\ length (calls (snd run)) = 1%nat.
Proof. cbv zeta. repeat split. Qed.

(** A response with an error status is reported and gives [None]. *)
Example agent_retrieval_status_500 :
  let error_response :=
    {| status_code := 500; text := "API Error"; headers := [];
       json_body := inl JSONDecodeError |} in
  let run := get_first_agent_id (B := Sample.builtins) Sample.ENV
               (Sample.fresh (Sample.always error_response)) in
  fst run = Returned None
  /\ log (snd run) =
       [(INFO, "Attempting to fetch the first agent ID.");
        (ERROR, "Failed to fetch agents: 500 - API Error")].
Proof. cbv zeta. repeat split. Qed.

(** A report that can be written. *)
Example report_saved :
  let run := save_report (B := Sample.builtins) "Cisco.com Test" (JInt 7)
               (Sample.fresh (Sample.always (Sample.plain 200))) in
  fst run = Returned tt
  /\ files (snd run) = [("Cisco.com Test_report.json", "7")]
  /\ log (snd run) =
       [(INFO, "Report saved to: Cisco.com Test_report.json")].
Proof. cbv zeta. repeat split. Qed.

(** ** The properties on the sample data *)

(** Agent lookup against the body [{"agents": []}] of the unit test
    [test_no_agents_found]. *)
Lemma get_first_agent_id_empty_agents_witness :
  let w := Sample.fresh
             (Sample.always (Sample.success (JObj [("agents", JArr [])]))) in
  let run := get_first_agent_id (B := Sample.builtins) Sample.ENV w in
  fst run = Returned None
  /\ log (snd run) =
       [(INFO, "Attempting to fetch the first agent ID.");
        (WARNING, "No agents found in your account.")].
Proof.
  cbv zeta.
  rewrite (get_first_agent_id_empty_agents (B := Sample.builtins) Sample.ENV
             (Sample.fresh
                (Sample.always (Sample.success (JObj [("agents", JArr [])]))))
             (Sample.success (JObj [("agents", JArr [])]))
             [("agents", JArr [])]
             eq_refl eq_refl eq_refl eq_refl).
  split; reflexivity.
Defined.

(** Test lookup against [TESTS_DATA], for the name it holds. *)
Lemma find_existing_test_id_lookup_witness :
  let w := Sample.fresh (Sample.always (Sample.success Sample.TESTS_DATA)) in
  fst (find_existing_test_id (B := Sample.builtins) Sample.ENV
         "Cisco.com Test" w) = Returned (Some 6969142)
  /\ fst (find_existing_test_id (B := Sample.builtins) Sample.ENV
            "Different Test" w) = Returned None.
Proof.
  cbv zeta.
  set (w := Sample.fresh (Sample.always (Sample.success Sample.TESTS_DATA))).
  pose (record :=
          JObj [("interval", JInt 3600);
                ("testId", JStr "6969142");
                ("testName", JStr "Cisco.com Test");
                ("createdBy", JStr "Student (student@cisco.com)");
                ("createdDate", JStr "2025-04-10T13:42:26Z");
                ("type", JStr "http-server");
                ("enabled", JBool true);
                ("url", JStr "https://cisco.com")]).
  split.
  - rewrite (proj2 (find_existing_test_id_lookup (B := Sample.builtins)
                      Sample.ENV "Cisco.com Test" w
                      (Sample.success Sample.TESTS_DATA)
                      [("tests", JArr [record])] [record]
                      eq_refl eq_refl eq_refl eq_refl)
               [] [] record (JStr "6969142") 6969142
               eq_refl (Forall_nil _) eq_refl eq_refl eq_refl).
    reflexivity.
  - rewrite (proj1 (find_existing_test_id_lookup (B := Sample.builtins)
                      Sample.ENV "Different Test" w
                      (Sample.success Sample.TESTS_DATA)
                      [("tests", JArr [record])] [record]
                      eq_refl eq_refl eq_refl eq_refl)
               (Forall_cons record
                  (conj (eq_refl : is_record record = true)
                     (eq_refl : named "Different Test" record = false))
                  (Forall_nil _))).
    reflexivity.
Defined.

(** Result analysis of two objects that share their first entry only. *)
Lemma analyze_results_first_entry_only_witness :
  let one := [("results", JArr [Sample.RESULT])] in
  let two := [("test", JStr "Cisco.com Test");
              ("results", JArr [Sample.RESULT; JNull; JInt 7])] in
  let w := Sample.fresh (Sample.always (Sample.plain 500)) in
  lookup "results" one = Some (JArr [Sample.RESULT])
  /\ lookup "results" two = Some (JArr [Sample.RESULT; JNull; JInt 7])
  /\ analyze_results (B := Sample.builtins) Sample.ENV (JObj one) w =
     analyze_results (B := Sample.builtins) Sample.ENV (JObj two) w.
Proof.
  cbv zeta. split; [reflexivity | split; [reflexivity | ]].
  apply (analyze_results_first_entry_only (B := Sample.builtins) Sample.ENV
           [("results", JArr [Sample.RESULT])]
           [("test", JStr "Cisco.com Test");
            ("results", JArr [Sample.RESULT; JNull; JInt 7])]
           Sample.RESULT [] [JNull; JInt 7]); reflexivity.
Defined.

(** ** What the functions leave behind *)

Lemma bind_run {A B} (c : M A) (k : A -> M B) (w : world) :
  bind c k w =
    match c w with
    | (Returned a, w') => k a w'
    | (Raised e, w') => (Raised e, w')
    end.
Proof. reflexivity. Qed.

Lemma grows_refl (w : world) : grows w w [] [] [].
Proof.
  unfold grows. repeat split; try (rewrite app_nil_r; reflexivity).
  exists []. rewrite app_nil_r. reflexivity.
Qed.

Lemma grows_trans (w w1 w2 : world) (cs1 cs2 : list request)
  (ss1 ss2 : list Z) (fs1 fs2 : list (string * string)) :
  grows w w1 cs1 ss1 fs1 ->
  grows w1 w2 cs2 ss2 fs2 ->
  grows w w2 (cs1 ++ cs2) (ss1 ++ ss2) (fs2 ++ fs1).
Proof.
  intros (Hn1 & Ho1 & Hc1 & Hs1 & Hf1 & ms1 & Hl1)
         (Hn2 & Ho2 & Hc2 & Hs2 & Hf2 & ms2 & Hl2).
  unfold grows. repeat split.
  - congruence.
  - congruence.
  - rewrite Hc2, Hc1, app_assoc. reflexivity.
  - rewrite Hs2, Hs1, app_assoc. reflexivity.
  - rewrite Hf2, Hf1, app_assoc. reflexivity.
  - exists (ms1 ++ ms2)%list. rewrite Hl2, Hl1, app_assoc. reflexivity.
Qed.

Lemma grows_log (l : level) (msg : string) (w : world) :
  grows w (add_log l msg w) [] [] [].
Proof.
  unfold grows. cbn. repeat split; try (rewrite app_nil_r; reflexivity).
  exists [(l, msg)]. reflexivity.
Qed.

Lemma grows_call (q : request) (w : world) : grows w (add_call q w) [q] [] [].
Proof.
  unfold grows. cbn. repeat split; try (rewrite app_nil_r; reflexivity).
  exists []. rewrite app_nil_r. reflexivity.
Qed.

Lemma grows_sleep (secs : Z) (w : world) :
  grows w (add_sleep secs w) [] [secs] [].
Proof.
  unfold grows. cbn. repeat split; try (rewrite app_nil_r; reflexivity).
  exists []. rewrite app_nil_r. reflexivity.
Qed.

Lemma grows_file (path content : string) (w : world) :
  grows w (add_file path content w) [] [] [(path, content)].
Proof.
  unfold grows. cbn. repeat split; try (rewrite app_nil_r; reflexivity).
  exists []. rewrite app_nil_r. reflexivity.
Qed.

(** Logging first changes nothing else. *)
Lemma grows_after_log (l : level) (msg : string) (w w' : world)
  (cs : list request) (ss : list Z) (fs : list (string * string)) :
  grows (add_log l msg w) w' cs ss fs -> grows w w' cs ss fs.
Proof.
  intros H. pose proof (grows_trans _ _ _ _ _ _ _ _ _ (grows_log l msg w) H) as G.
  cbn [app] in G. rewrite app_nil_r in G. exact G.
Qed.

(** Logging last changes nothing else. *)
Lemma grows_then_log (l : level) (msg : string) (w w' : world)
  (cs : list request) (ss : list Z) (fs : list (string * string)) :
  grows w w' cs ss fs -> grows w (add_log l msg w') cs ss fs.
Proof.
  intros H.
  pose proof (grows_trans _ _ _ _ _ _ _ _ _ H (grows_log l msg w')) as G.
  cbn [app] in G. rewrite !app_nil_r in G. exact G.
Qed.

Create HintDb quiet.

Lemma only_logs_ret {A} (a : A) : only_logs (ret a).
Proof. intros w. apply grows_refl. Qed.

Lemma only_logs_raise {A} (e : exn) : only_logs (@raise A e).
Proof. intros w. apply grows_refl. Qed.

Lemma only_logs_lift {A} (r : exn + A) : only_logs (lift r).
Proof. destruct r; [apply only_logs_raise | apply only_logs_ret]. Qed.

Lemma only_logs_info (msg : string) : only_logs (logger_info msg).
Proof. intros w. apply grows_log. Qed.

Lemma only_logs_warning (msg : string) : only_logs (logger_warning msg).
Proof. intros w. apply grows_log. Qed.

Lemma only_logs_error (msg : string) : only_logs (logger_error msg).
Proof. intros w. apply grows_log. Qed.

Lemma only_logs_bind {A C} (c : M A) (k : A -> M C) :
  only_logs c -> (forall a, only_logs (k a)) -> only_logs (bind c k).
Proof.
  intros Hc Hk w. rewrite bind_run. specialize (Hc w).
  destruct (c w) as [[a | e] w1]; cbn [snd] in Hc.
  - exact (grows_trans _ _ _ _ _ _ _ _ _ Hc (Hk a w1)).
  - exact Hc.
Qed.

#[local] Hint Resolve only_logs_ret only_logs_raise only_logs_lift
  only_logs_info only_logs_warning only_logs_error : quiet.

(** Splits a computation that only logs into its steps and branches. *)
Ltac quiet :=
  repeat first
    [ solve [auto with quiet]
    | apply only_logs_bind; [ | intro ]
    | match goal with
      | |- only_logs (if ?b then _ else _) => destruct b
      | |- only_logs (match ?x with _ => _ end) => destruct x
      end ].

(** A function that logs, makes one call and then only logs. *)
Lemma one_call_intro {A} (msg : string) (q : request)
  (k : response -> M A) :
  (forall r, only_logs (k r)) ->
  one_call q (logger_info msg ;;; (r <- send q ;; k r)).
Proof.
  intros Hk w. rewrite bind_run. cbn [logger_info].
  apply (grows_after_log INFO msg). rewrite bind_run. unfold send.
  destruct (network (add_log INFO msg w)
              (length (calls (add_log INFO msg w))) q) as [e | r].
  - apply grows_call.
  - exact (grows_trans _ _ _ _ _ _ _ _ _ (grows_call q _) (Hk r _)).
Qed.

Section Effects.

Context {B : Builtins}.
Variable cfg : config.

Lemma only_logs_find_loop (test_name : string) (tests : list json) :
  only_logs (find_loop test_name tests).
Proof.
  induction tests as [ | t rest IH]; cbn [find_loop]; quiet.
Qed.

Lemma only_logs_find_loop_env (test_name : option string)
  (tests : list json) :
  only_logs (find_loop_env test_name tests).
Proof.
  induction tests as [ | t rest IH]; cbn [find_loop_env]; quiet.
Qed.

Lemma only_logs_summary (result : json) : only_logs (summary cfg result).
Proof. unfold summary. quiet. Qed.

End Effects.

#[local] Hint Resolve only_logs_find_loop only_logs_find_loop_env
  only_logs_summary : quiet.

(** ** The functions at a [str] *)

Section AtStr.

Context {B : Builtins}.
Variable cfg : config.

Lemma find_loop_env_str (s : string) (tests : list json) :
  find_loop_env (Some s) tests = find_loop s tests.
Proof.
  induction tests as [ | t rest IH]; [reflexivity | ].
  cbn [find_loop_env find_loop eq_env]. rewrite IH. reflexivity.
Qed.

Lemma find_existing_test_id_env_str (s : string) (w : world) :
  find_existing_test_id_env cfg (Some s) w = find_existing_test_id cfg s w.
Proof.
  unfold find_existing_test_id_env, find_existing_test_id.
  cbn [str_env]. rewrite !(bind_run (logger_info _)). cbn [logger_info].
  rewrite !(bind_run (requests_get _ _)).
  destruct (requests_get _ _ _) as [[r | e] w1]; [ | reflexivity].
  destruct (ok r); [ | reflexivity].
  rewrite !(bind_run (lift (json_body r))).
  destruct (lift (json_body r) w1) as [[body | e] w2]; [ | reflexivity].
  rewrite !(bind_run (lift (get _ _ _))).
  destruct (lift (get body "tests" (JArr [])) w2) as [[tests | e] w3];
    [ | reflexivity].
  rewrite !(bind_run (lift (iter _))).
  destruct (lift (iter tests) w3) as [[items | e] w4]; [ | reflexivity].
  rewrite (bind_run (find_loop_env _ _)), (bind_run (find_loop _ _)).
  rewrite find_loop_env_str. reflexivity.
Qed.

Lemma create_test_env_str (test_name target : string)
  (agent_id interval : Z) :
  create_test_env cfg (Some test_name) (Some target) agent_id interval =
  create_test cfg test_name target agent_id interval.
Proof. reflexivity. Qed.

Lemma save_report_env_str (test_name : string) (results : json) :
  save_report_env (Some test_name) results = save_report test_name results.
Proof. reflexivity. Qed.

End AtStr.

(** ** The collaborators, path by path *)

Section Collaborators.

Context {B : Builtins}.
Variable cfg : config.

Lemma get_first_agent_id_one_call :
  one_call (agents_request cfg) (get_first_agent_id cfg).
Proof.
  unfold get_first_agent_id, requests_get. apply one_call_intro.
  intros r. quiet.
Qed.

Lemma find_existing_test_id_env_one_call (test_name : option string) :
  one_call (tests_request cfg) (find_existing_test_id_env cfg test_name).
Proof.
  unfold find_existing_test_id_env, requests_get. apply one_call_intro.
  intros r. quiet.
Qed.

Lemma create_test_env_one_call (test_name target : option string)
  (agent_id interval : Z) :
  one_call (create_request cfg test_name target agent_id interval)
    (create_test_env cfg test_name target agent_id interval).
Proof.
  unfold create_test_env, requests_post. apply one_call_intro.
  intros r. quiet.
Qed.

Lemma get_test_results_one_call (test_id : Z) :
  one_call (results_request cfg test_id) (get_test_results cfg test_id).
Proof.
  unfold get_test_results, requests_get. apply one_call_intro.
  intros r. quiet.
Qed.

(** X1.  Whatever the server answers (a response of any status and body, or
    an exception), a run of a collaborator adds exactly one request to the
    calls made, the one to its endpoint; it never sleeps and writes no
    file. *)
Theorem collaborators_make_one_call (test_name target : string)
  (agent_id interval test_id : Z) :
  one_call (agents_request cfg) (get_first_agent_id cfg)
  /\ one_call (tests_request cfg) (find_existing_test_id cfg test_name)
  /\ one_call
       (create_request cfg (Some test_name) (Some target) agent_id interval)
       (create_test cfg test_name target agent_id interval)
  /\ one_call (results_request cfg test_id) (get_test_results cfg test_id).
Proof.
  split; [exact get_first_agent_id_one_call | ].
  split.
  { intros w. rewrite <- find_existing_test_id_env_str.
    apply find_existing_test_id_env_one_call. }
  split; [ | apply get_test_results_one_call].
  rewrite <- create_test_env_str. apply create_test_env_one_call.
Qed.

(** *** Agent lookup *)

(** X2.  For a response with an error status (400 to 599),
    [get_first_agent_id] returns [None] and logs the status and the text of
    the response as an error; the body is not decoded. *)
Theorem get_first_agent_id_error_status (w : world) (r : response) :
  network w (length (calls w)) (agents_request cfg) = inr r ->
  ok r = false ->
  get_first_agent_id cfg w =
    (Returned None,
     add_log ERROR ("Failed to fetch agents: "
                    ++ str (JInt (status_code r)) ++ " - " ++ text r)
       (add_call (agents_request cfg)
          (add_log INFO "Attempting to fetch the first agent ID." w))).
Proof.
  intros Hnet Hok.
  unfold get_first_agent_id, requests_get.
  rewrite (bind_returned (logger_info _) _ w tt _ eq_refl).
  erewrite bind_returned by (apply send_response; exact Hnet).
  rewrite Hok. reflexivity.
Qed.

(** X3.  For a successful response whose [agents] array is not empty,
    [get_first_agent_id] returns the [agentId] of the first agent, converted
    by [int], and logs its name and id; the agents after the first play no
    part. *)
Theorem get_first_agent_id_first_agent (w : world) (r : response)
  (fields : list (string * json)) (agent name id : json) (rest : list json)
  (n : Z) :
  network w (length (calls w)) (agents_request cfg) = inr r ->
  ok r = true ->
  json_body r = inr (JObj fields) ->
  lookup "agents" fields = Some (JArr (agent :: rest)) ->
  getitem agent "agentName" = inr name ->
  getitem agent "agentId" = inr id ->
  int id = inr n ->
  get_first_agent_id cfg w =
    (Returned (Some n),
     add_log INFO ("Successfully fetched agent: " ++ str name
                   ++ " (ID: " ++ str id ++ ")")
       (add_call (agents_request cfg)
          (add_log INFO "Attempting to fetch the first agent ID." w))).
Proof.
  intros Hnet Hok Hbody Hagents Hname Hid Hint.
  unfold get_first_agent_id, requests_get.
  rewrite (bind_returned (logger_info _) _ w tt _ eq_refl).
  erewrite bind_returned by (apply send_response; exact Hnet).
  rewrite Hok, Hbody. cbn [bind lift ret get]. rewrite Hagents.
  cbn [truthy getitem0 bind lift ret]. rewrite Hname, Hid.
  cbn [bind lift ret logger_info]. rewrite Hint. reflexivity.
Qed.

(** X4.  A successful body without the key [agents], or with a value there
    that is empty or [None], is treated like an empty array: the function
    warns that no agents were found and returns [None]. *)
Theorem get_first_agent_id_no_agents (w : world) (r : response)
  (fields : list (string * json)) (agents : json) :
  network w (length (calls w)) (agents_request cfg) = inr r ->
  ok r = true ->
  json_body r = inr (JObj fields) ->
  get (JObj fields) "agents" (JArr []) = inr agents ->
  truthy agents = false ->
  get_first_agent_id cfg w =
    (Returned None,
     add_log WARNING "No agents found in your account."
       (add_call (agents_request cfg)
          (add_log INFO "Attempting to fetch the first agent ID." w))).
Proof.
  intros Hnet Hok Hbody Hget Hfalsy.
  unfold get_first_agent_id, requests_get.
  rewrite (bind_returned (logger_info _) _ w tt _ eq_refl).
  erewrite bind_returned by (apply send_response; exact Hnet).
  rewrite Hok, Hbody. cbn [bind lift ret]. rewrite Hget.
  cbn [bind lift ret]. rewrite Hfalsy. reflexivity.
Qed.

(** X5.  When the first agent is a record without the key [agentName], the
    lookup ends in an uncaught [KeyError], although the name serves the log
    line only: nothing is returned and no success is logged, whether or not
    the record has an [agentId]. *)
Theorem get_first_agent_id_agent_without_name (w : world) (r : response)
  (fields agent : list (string * json)) (rest : list json) :
  network w (length (calls w)) (agents_request cfg) = inr r ->
  ok r = true ->
  json_body r = inr (JObj fields) ->
  lookup "agents" fields = Some (JArr (JObj agent :: rest)) ->
  lookup "agentName" agent = None ->
  get_first_agent_id cfg w =
    (Raised (KeyError "agentName"),
     add_call (agents_request cfg)
       (add_log INFO "Attempting to fetch the first agent ID." w)).
Proof.
  intros Hnet Hok Hbody Hagents Hname.
  unfold get_first_agent_id, requests_get.
  rewrite (bind_returned (logger_info _) _ w tt _ eq_refl).
  erewrite bind_returned by (apply send_response; exact Hnet).
  rewrite Hok, Hbody. cbn [bind lift ret get]. rewrite Hagents.
  cbn [truthy getitem0 bind lift ret getitem]. rewrite Hname. reflexivity.
Qed.

(** *** Test lookup *)

(** X6.  For a response with an error status, [find_existing_test_id]
    returns [None] and logs the status and the text of the response as an
    error; the body is not decoded. *)
Theorem find_existing_test_id_error_status (test_name : string) (w : world)
  (r : response) :
  network w (length (calls w)) (tests_request cfg) = inr r ->
  ok r = false ->
  find_existing_test_id cfg test_name w =
    (Returned None,
     add_log ERROR ("Failed to retrieve tests: "
                    ++ str (JInt (status_code r)) ++ " - " ++ text r)
       (add_call (tests_request cfg)
          (add_log INFO ("Attempting to find existing test with name: '"
                         ++ test_name ++ "'") w))).
Proof.
  intros Hnet Hok.
  unfold find_existing_test_id, requests_get.
  rewrite (bind_returned (logger_info _) _ w tt _ eq_refl).
  erewrite bind_returned by (apply send_response; exact Hnet).
  rewrite Hok. reflexivity.
Qed.

(** The loop stops with [KeyError] at a first match that has no id. *)
Lemma find_loop_match_without_id (test_name : string)
  (pre post : list json) (t : list (string * json)) (w : world) :
  Forall (fun t => is_record t = true /\ named test_name t = false) pre ->
  named test_name (JObj t) = true ->
  lookup "testId" t = None ->
  find_loop test_name (pre ++ JObj t :: post) w =
    (Raised (KeyError "testId"), w).
Proof.
  intros Hpre Hname Hid.
  induction Hpre as [ | t' rest [Hrec' Hname'] _ IH].
  - destruct (get_name_match test_name (JObj t) Hname) as (name & Hget & Heq).
    cbn [app find_loop]. rewrite Hget. cbn [bind lift ret]. rewrite Heq.
    cbn [getitem]. rewrite Hid. reflexivity.
  - cbn [app]. rewrite find_loop_skip by assumption. exact IH.
Qed.

(** X7.  When the first record that carries the name has no [testId], the
    lookup ends in an uncaught [KeyError]; the records after it are not
    consulted, even if one of them carries the name and an id. *)
Theorem find_existing_test_id_match_without_id (test_name : string)
  (w : world) (r : response) (fields : list (string * json))
  (pre post : list json) (t : list (string * json)) :
  network w (length (calls w)) (tests_request cfg) = inr r ->
  ok r = true ->
  json_body r = inr (JObj fields) ->
  lookup "tests" fields = Some (JArr (pre ++ JObj t :: post)) ->
  Forall (fun t => is_record t = true /\ named test_name t = false) pre ->
  named test_name (JObj t) = true ->
  lookup "testId" t = None ->
  find_existing_test_id cfg test_name w =
    (Raised (KeyError "testId"),
     add_call (tests_request cfg)
       (add_log INFO ("Attempting to find existing test with name: '"
                      ++ test_name ++ "'") w)).
Proof.
  intros Hnet Hok Hbody Htests Hpre Hname Hid.
  unfold find_existing_test_id, requests_get.
  rewrite (bind_returned (logger_info _) _ w tt _ eq_refl).
  erewrite bind_returned by (apply send_response; exact Hnet).
  rewrite Hok, Hbody. cbn [bind lift ret get]. rewrite Htests.
  cbn [iter bind lift ret]. rewrite bind_run.
  rewrite find_loop_match_without_id by assumption. reflexivity.
Qed.

(** *** Test creation *)

(** X8.  [create_test] sends the payload it builds from its arguments, with
    the fixed type, protocol and enabled flag; when the answer has status
    201, it returns the [testId] of the body, converted by [int], and logs
    the creation. *)
Theorem create_test_created (test_name target : string)
  (agent_id interval : Z) (w : world) (r : response)
  (fields : list (string * json)) (test_id : json) (n : Z) :
  let q := create_request cfg (Some test_name) (Some target) agent_id
             interval in
  network w (length (calls w)) q = inr r ->
  status_code r = 201 ->
  json_body r = inr (JObj fields) ->
  lookup "testId" fields = Some test_id ->
  int test_id = inr n ->
  create_test cfg test_name target agent_id interval w =
    (Returned (Some n),
     add_log INFO ("Successfully created test '" ++ test_name ++ "' (ID: "
                   ++ str test_id ++ ")")
       (add_call q
          (add_log INFO ("Attempting to create a new test: '" ++ test_name
                         ++ "'") w))).
Proof.
  intros q Hnet Hstatus Hbody Hid Hint.
  unfold create_test, requests_post.
  rewrite (bind_returned (logger_info _) _ w tt _ eq_refl).
  erewrite bind_returned by (apply send_response; exact Hnet).
  rewrite Hstatus, Hbody. cbn [Z.eqb Pos.eqb bind lift ret get].
  rewrite Hid. cbn [bind lift ret logger_info]. rewrite Hint. reflexivity.
Qed.

(** X9.  Any status other than 201, a 200 included, makes [create_test]
    return [None] and log the status and the text of the response as an
    error; the body is not decoded. *)
Theorem create_test_not_created (test_name target : string)
  (agent_id interval : Z) (w : world) (r : response) :
  let q := create_request cfg (Some test_name) (Some target) agent_id
             interval in
  network w (length (calls w)) q = inr r ->
  status_code r <> 201 ->
  create_test cfg test_name target agent_id interval w =
    (Returned None,
     add_log ERROR ("Error creating test: "
                    ++ str (JInt (status_code r)) ++ " - " ++ text r)
       (add_call q
          (add_log INFO ("Attempting to create a new test: '" ++ test_name
                         ++ "'") w))).
Proof.
  intros q Hnet Hstatus.
  unfold create_test, requests_post.
  rewrite (bind_returned (logger_info _) _ w tt _ eq_refl).
  erewrite bind_returned by (apply send_response; exact Hnet).
  destruct (Z.eqb_spec (status_code r) 201) as [E | _]; [contradiction | ].
  reflexivity.
Qed.

(** *** Result retrieval *)

(** X10.  For a successful response, [get_test_results] logs the success
    before it decodes the body: it then returns the decoded body, or lets the
    decoding error escape with the success already logged. *)
Theorem get_test_results_success (test_id : Z) (w : world) (r : response) :
  network w (length (calls w)) (results_request cfg test_id) = inr r ->
  ok r = true ->
  get_test_results cfg test_id w =
    (match json_body r with
     | inr body => Returned body
     | inl e => Raised e
     end,
     add_log INFO ("Successfully fetched test results for test ID "
                   ++ str (JInt test_id))
       (add_call (results_request cfg test_id)
          (add_log INFO ("Attempting to fetch test results for test ID: "
                         ++ str (JInt test_id)) w))).
Proof.
  intros Hnet Hok.
  unfold get_test_results, requests_get.
  rewrite (bind_returned (logger_info _) _ w tt _ eq_refl).
  erewrite bind_returned by (apply send_response; exact Hnet).
  rewrite Hok. destruct (json_body r); reflexivity.
Qed.

(** X11.  For a response with an error status, [get_test_results] returns
    [None] and logs the status and the text of the response as an error. *)
Theorem get_test_results_error_status (test_id : Z) (w : world)
  (r : response) :
  network w (length (calls w)) (results_request cfg test_id) = inr r ->
  ok r = false ->
  get_test_results cfg test_id w =
    (Returned JNull,
     add_log ERROR ("Failed to retrieve test results: "
                    ++ str (JInt (status_code r)) ++ " - " ++ text r)
       (add_call (results_request cfg test_id)
          (add_log INFO ("Attempting to fetch test results for test ID: "
                         ++ str (JInt test_id)) w))).
Proof.
  intros Hnet Hok.
  unfold get_test_results, requests_get.
  rewrite (bind_returned (logger_info _) _ w tt _ eq_refl).
  erewrite bind_returned by (apply send_response; exact Hnet).
  rewrite Hok. reflexivity.
Qed.

End Collaborators.

(** ** Result analysis and report, path by path *)

Lemma bind_lift_inr {A C} (r : exn + A) (a : A) (k : A -> M C) (w : world) :
  r = inr a -> bind (lift r) k w = k a w.
Proof. intros ->. reflexivity. Qed.

Lemma getitem_found (fields : list (string * json)) (key : string)
  (v : json) :
  lookup key fields = Some v -> getitem (JObj fields) key = inr v.
Proof. intros H. cbn [getitem]. rewrite H. reflexivity. Qed.

Section Analysis.

Context {B : Builtins}.
Variable cfg : config.

Lemma only_logs_analyze_results (results : json) :
  only_logs (analyze_results cfg results).
Proof.
  unfold analyze_results. quiet.
Qed.

(** X12.  [analyze_results] acts on the log alone, also when it raises: it
    makes no network call, does not sleep and writes no file, and the
    records logged before it stay in place. *)
Theorem analyze_results_only_logs (results : json) (w : world) :
  let w' := snd (analyze_results cfg results w) in
  calls w' = calls w
  /\ sleeps w' = sleeps w
  /\ files w' = files w
  /\ exists records, log w' = (log w ++ records)%list.
Proof.
  cbv zeta.
  destruct (only_logs_analyze_results results w)
    as (_ & _ & Hcalls & Hsleeps & Hfiles & Hlog).
  rewrite app_nil_r in Hcalls, Hsleeps.
  repeat split; assumption.
Qed.

(** X13.  A results object without the key [results], or with a value there
    that is empty or [None], gets a warning and nothing else: no summary is
    logged and nothing is raised. *)
Theorem analyze_results_no_entries (fields : list (string * json))
  (entries : json) (w : world) :
  get (JObj fields) "results" (JArr []) = inr entries ->
  truthy entries = false ->
  analyze_results cfg (JObj fields) w =
    (Returned tt,
     add_log WARNING "No HTTP Server test results available for analysis."
       (add_log INFO "Analyzing test results." w)).
Proof.
  intros Hget Hfalsy. unfold analyze_results.
  rewrite (bind_returned (logger_info _) _ w tt _ eq_refl).
  rewrite Hget. cbn [bind lift ret]. rewrite Hfalsy. reflexivity.
Qed.

(** The summary needs the agent's name and id, the date and a health score
    that formats; every other field may be missing. *)
Lemma summary_required_fields (result agent : list (string * json))
  (name id date health_score : json) (health : string) (w : world) :
  lookup "agent" result = Some (JObj agent) ->
  lookup "agentName" agent = Some name ->
  lookup "agentId" agent = Some id ->
  lookup "date" result = Some date ->
  get (JObj result) "healthScore" (JInt 0) = inr health_score ->
  format_4f health_score = inr health ->
  exists output, summary cfg (JObj result) w = (Returned output, w).
Proof.
  intros Hagent Hname Hid Hdate Hscore Hhealth.
  unfold summary.
  rewrite (bind_lift_inr _ _ _ _ (getitem_found _ _ _ Hagent)).
  rewrite (bind_lift_inr _ _ _ _ (getitem_found _ _ _ Hname)).
  rewrite (bind_lift_inr _ _ _ _ (getitem_found _ _ _ Hagent)).
  rewrite (bind_lift_inr _ _ _ _ (getitem_found _ _ _ Hid)).
  rewrite (bind_lift_inr _ _ _ _ (getitem_found _ _ _ Hdate)).
  do 14 (erewrite bind_lift_inr by (cbn [get]; reflexivity)).
  rewrite (bind_lift_inr _ _ _ _ Hscore).
  rewrite (bind_lift_inr _ _ _ _ Hhealth).
  eexists. reflexivity.
Qed.

(** X14.  When the first entry is a record with an [agent] record holding
    [agentName] and [agentId], with a [date], and with a health score that
    formats (0 stands in for a missing one), [analyze_results] returns and
    logs one summary after its opening line; none of the metric fields is
    required. *)
Theorem analyze_results_required_fields (fields result agent :
  list (string * json)) (rest : list json)
  (name id date health_score : json) (health : string) (w : world) :
  lookup "results" fields = Some (JArr (JObj result :: rest)) ->
  lookup "agent" result = Some (JObj agent) ->
  lookup "agentName" agent = Some name ->
  lookup "agentId" agent = Some id ->
  lookup "date" result = Some date ->
  get (JObj result) "healthScore" (JInt 0) = inr health_score ->
  format_4f health_score = inr health ->
  exists output,
    analyze_results cfg (JObj fields) w =
      (Returned tt,
       add_log INFO output (add_log INFO "Analyzing test results." w)).
Proof.
  intros Hresults Hagent Hname Hid Hdate Hscore Hhealth.
  destruct (summary_required_fields result agent name id date health_score
              health (add_log INFO "Analyzing test results." w)
              Hagent Hname Hid Hdate Hscore Hhealth) as [output Hsummary].
  exists output.
  rewrite (analyze_results_first cfg fields (JObj result) rest w Hresults).
  rewrite bind_run, Hsummary. reflexivity.
Qed.

(** X15.  When the first entry is a record without the key [agent],
    [analyze_results] ends in an uncaught [KeyError] after its opening line,
    whatever else the entry holds. *)
Theorem analyze_results_entry_without_agent (fields result :
  list (string * json)) (rest : list json) (w : world) :
  lookup "results" fields = Some (JArr (JObj result :: rest)) ->
  lookup "agent" result = None ->
  analyze_results cfg (JObj fields) w =
    (Raised (KeyError "agent"), add_log INFO "Analyzing test results." w).
Proof.
  intros Hresults Hagent.
  rewrite (analyze_results_first cfg fields (JObj result) rest w Hresults).
  rewrite bind_run. unfold summary. cbn [getitem]. rewrite Hagent.
  reflexivity.
Qed.

(** What [save_report_env] leaves behind: the file when it returns, nothing
    but the log otherwise. *)
Lemma save_report_env_effects (test_name : option string) (results : json)
  (w : world) :
  let run := save_report_env test_name results w in
  (fst run = Returned tt
   /\ grows w (snd run) [] []
        [(str_env test_name ++ "_report.json", dumps 2 results)])
  \/ ((exists e, fst run = Raised e) /\ snd run = w).
Proof.
  cbv zeta. unfold save_report_env. rewrite bind_run. unfold write_file.
  destruct (open_error w (str_env test_name ++ "_report.json")) as [e | ].
  - right. split; [exists e | ]; reflexivity.
  - left. split; [reflexivity | ]. cbn [logger_info snd].
    apply grows_then_log, grows_file.
Qed.

(** X21.  When the file can be opened, [save_report] returns after writing
    the results, serialized with indent 2, to the file named
    [test_name ++ "_report.json"] and logging where the report was saved; it
    makes no network call. *)
Theorem save_report_written (test_name : string) (results : json)
  (w : world) :
  open_error w (test_name ++ "_report.json") = None ->
  let run := save_report test_name results w in
  fst run = Returned tt
  /\ files (snd run) =
       (test_name ++ "_report.json", dumps 2 results) :: files w
  /\ log (snd run) =
       (log w ++ [(INFO, ("Report saved to: " ++ test_name
                          ++ "_report.json")%string)])%list
  /\ calls (snd run) = calls w.
Proof.
  intros Hopen. cbv zeta. rewrite (save_report_writes _ _ _ Hopen).
  repeat split.
Qed.

End Analysis.

(** ** The entry point, run by run *)

Section Orchestration.

Context {B : Builtins}.
Variable cfg : config.

(** From the fetch of the results on: one call, and the report exactly when
    the run completes. *)
Lemma main_tail (test_id : Z) (w : world) (run : outcome termination * world) :
  run =
    (results <- get_test_results cfg test_id ;;
     if truthy results then
       analyze_results cfg results ;;;
       save_report_env (TEST_NAME cfg) results ;;;
       ret Completed
     else
       logger_error "No results returned. Exiting." ;;;
       ret (Exit 1)) w ->
  exists fs,
    grows w (snd run) [results_request cfg test_id] [] fs
    /\ reported cfg fs (fst run).
Proof.
  intros ->. rewrite bind_run.
  pose proof (get_test_results_one_call cfg test_id w) as G1.
  destruct (get_test_results cfg test_id w) as [[results | e] w1];
    cbn [snd] in G1.
  2: { exists []. split; [exact G1 | left; split; [reflexivity | discriminate]]. }
  destruct (truthy results).
  2: { exists []. split.
       - cbn. apply grows_then_log. exact G1.
       - left. split; [reflexivity | discriminate]. }
  rewrite bind_run.
  pose proof (only_logs_analyze_results cfg results w1) as G2.
  destruct (analyze_results cfg results w1) as [[[] | e] w2]; cbn [snd] in G2.
  2: { exists []. split.
       - exact (grows_trans _ _ _ _ _ _ _ _ _ G1 G2).
       - left. split; [reflexivity | discriminate]. }
  rewrite bind_run.
  destruct (save_report_env_effects (TEST_NAME cfg) results w2)
    as [[Hret G3] | [[e Hraised] Hsame]];
    destruct (save_report_env (TEST_NAME cfg) results w2) as [o w3];
    cbn [fst snd] in *; subst o.
  - eexists. split.
    + exact (grows_trans _ _ _ _ _ _ _ _ _
               (grows_trans _ _ _ _ _ _ _ _ _ G1 G2) G3).
    + right. exists results. split; reflexivity.
  - subst w3. exists []. split.
    + exact (grows_trans _ _ _ _ _ _ _ _ _ G1 G2).
    + left. split; [reflexivity | discriminate].
Qed.

(** Every run of [main] follows one of the five traces. *)
Lemma main_traces (w : world) :
  exists cs ss fs,
    grows w (snd (main cfg w)) (agents_request cfg :: cs) ss fs
    /\ main_trace cfg (fst (main cfg w)) cs ss fs.
Proof.
  unfold main. rewrite bind_run. cbn [logger_info].
  set (w0 := add_log INFO "Starting ThousandEyes test automation..." w).
  rewrite bind_run.
  pose proof (grows_after_log _ _ _ _ _ _ _
                (get_first_agent_id_one_call cfg w0)) as G1.
  destruct (get_first_agent_id cfg w0) as [[[agent_id | ] | e] w1];
    cbn [snd] in G1.
  3: { exists [], [], []. split; [exact G1 | ].
       left. repeat split; discriminate. }
  2: { exists [], [], []. split.
       - cbn. apply grows_then_log. exact G1.
       - left. repeat split; discriminate. }
  rewrite bind_run.
  pose proof (grows_trans _ _ _ _ _ _ _ _ _ G1
                (find_existing_test_id_env_one_call cfg (TEST_NAME cfg) w1))
    as G2.
  destruct (find_existing_test_id_env cfg (TEST_NAME cfg) w1)
    as [[[test_id | ] | e] w2]; cbn [snd app] in G2.
  3: { exists [tests_request cfg], [], []. split; [exact G2 | ].
       right; left. repeat split; discriminate. }
  - (* the test exists *)
    rewrite bind_run, (bind_run (logger_info _)).
    cbn [logger_info ret]. rewrite (bind_run (ret tt)). cbn [ret].
    match goal with
    | |- context [bind (get_test_results cfg test_id) ?k ?w'] =>
        destruct (main_tail test_id w' _ eq_refl) as (fs & G3 & R);
        exists [tests_request cfg; results_request cfg test_id], [], fs
    end.
    split.
    + pose proof (grows_trans _ _ _ _ _ _ _ _ _
                    (grows_then_log INFO _ _ _ _ _ _ G2) G3) as G.
      cbn [app] in G. rewrite app_nil_r in G. exact G.
    + right; right; left. exists test_id. repeat split. exact R.
  - (* the test is to be created *)
    rewrite bind_run, (bind_run (logger_info _)). cbn [logger_info].
    rewrite bind_run.
    match goal with
    | |- context [create_test_env cfg ?n ?t ?a ?i ?w'] =>
        pose proof (grows_trans _ _ _ _ _ _ _ _ _
                      (grows_then_log INFO _ _ _ _ _ _ G2)
                      (create_test_env_one_call cfg n t a i w')) as G3;
        destruct (create_test_env cfg n t a i w')
          as [[[test_id | ] | e] w3]; cbn [snd app] in G3
    end.
    3: { eexists _, [], []. split; [exact G3 | ].
         right; right; right; left. exists agent_id.
         repeat split; discriminate. }
    2: { eexists _, [], []. split.
         - cbn. apply grows_then_log. exact G3.
         - right; right; right; left. exists agent_id.
           repeat split; discriminate. }
    cbn [ret]. rewrite bind_run, (bind_run (logger_info _)).
    cbn [logger_info time_sleep].
    match goal with
    | |- context [bind (get_test_results cfg test_id) ?k ?w'] =>
        destruct (main_tail test_id w' _ eq_refl) as (fs & G4 & R);
        eexists _, [90], fs
    end.
    split.
    + pose proof (grows_trans _ _ _ _ _ _ _ _ _
                    (grows_trans _ _ _ _ _ _ _ _ _
                       (grows_then_log INFO _ _ _ _ _ _ G3)
                       (grows_sleep 90 _)) G4) as G.
      cbn [app] in G. rewrite app_nil_r in G. exact G.
    + right; right; right; right. exists agent_id, test_id.
      repeat split. exact R.
Qed.

(** X16.  Every run of [main] starts with the agents call and makes at
    most three more calls; at most one of its calls is a POST. *)
Theorem main_requests (w : world) :
  exists cs,
    calls (snd (main cfg w)) = (calls w ++ agents_request cfg :: cs)%list
    /\ (length cs <= 3)%nat
    /\ (length (filter (fun q => String.eqb (req_method q) "POST") cs)
        <= 1)%nat.
Proof.
  destruct (main_traces w) as (cs & ss & fs & G & T).
  destruct G as (_ & _ & Hcalls & _).
  exists cs. split; [exact Hcalls | ].
  destruct T as [(-> & _) | [(-> & _) | [(id & -> & _)
    | [(a & -> & _) | (a & id & -> & _)]]]]; cbn; lia.
Qed.

(** X17.  [main] sleeps at most once, for 90 seconds, and only in a run in
    which it has sent the request that creates the test. *)
Theorem main_sleeps_after_creation (w : world) :
  sleeps (snd (main cfg w)) = sleeps w
  \/ (sleeps (snd (main cfg w)) = (sleeps w ++ [90])%list
      /\ exists cs a,
           calls (snd (main cfg w)) = (calls w ++ cs)%list
           /\ In (create_request cfg (TEST_NAME cfg) (TARGET cfg) a
                    default_interval) cs).
Proof.
  destruct (main_traces w) as (cs & ss & fs & G & T).
  destruct G as (_ & _ & Hcalls & Hsleeps & _).
  destruct T as [(_ & -> & _) | [(_ & -> & _) | [(id & _ & -> & _)
    | [(a & _ & -> & _) | (a & id & -> & -> & _)]]]];
    try (left; rewrite Hsleeps; apply app_nil_r).
  right. split; [exact Hsleeps | ].
  eexists _, a. split; [exact Hcalls | ].
  cbn. right; right; left. reflexivity.
Qed.


(** X19.  When the agent lookup returns [None] (an error status, or no
    agents), [main] logs that no agent is available and exits with status 1,
    without another call. *)
Theorem main_exits_without_agent (w w1 : world) :
  get_first_agent_id cfg
    (add_log INFO "Starting ThousandEyes test automation..." w) =
    (Returned None, w1) ->
  main cfg w =
    (Returned (Exit 1), add_log ERROR "No valid agent available. Exiting." w1)
  /\ calls w1 = (calls w ++ [agents_request cfg])%list.
Proof.
  intros Hagent. split.
  - unfold main. rewrite bind_run. cbn [logger_info].
    rewrite bind_run, Hagent. reflexivity.
  - pose proof (get_first_agent_id_one_call cfg
                  (add_log INFO "Starting ThousandEyes test automation..." w))
      as (_ & _ & Hcalls & _).
    rewrite Hagent in Hcalls. exact Hcalls.
Qed.

(** X20.  When the agent lookup yields an agent and the test lookup yields
    an existing test, [main] fetches the results of that test at once: its
    calls are the two lookups and the fetch, nothing is created and nothing
    is waited for. *)
Theorem main_existing_test_fetched_at_once (w w1 w2 : world)
  (agent_id test_id : Z) :
  get_first_agent_id cfg
    (add_log INFO "Starting ThousandEyes test automation..." w) =
    (Returned (Some agent_id), w1) ->
  find_existing_test_id_env cfg (TEST_NAME cfg) w1 =
    (Returned (Some test_id), w2) ->
  calls (snd (main cfg w)) =
    (calls w ++ [agents_request cfg; tests_request cfg;
                 results_request cfg test_id])%list
  /\ sleeps (snd (main cfg w)) = sleeps w.
Proof.
  intros Hagent Htest.
  pose proof (grows_after_log _ _ _ _ _ _ _
                (get_first_agent_id_one_call cfg
                   (add_log INFO "Starting ThousandEyes test automation..."
                      w))) as G1.
  rewrite Hagent in G1. cbn [snd] in G1.
  pose proof (grows_trans _ _ _ _ _ _ _ _ _ G1
                (find_existing_test_id_env_one_call cfg (TEST_NAME cfg) w1))
    as G2.
  rewrite Htest in G2. cbn [snd app] in G2.
  unfold main. rewrite bind_run. cbn [logger_info].
  rewrite bind_run, Hagent, bind_run, Htest.
  rewrite bind_run, (bind_run (logger_info _)).
  cbn [logger_info ret]. rewrite (bind_run (ret tt)). cbn [ret].
  match goal with
  | |- context [bind (get_test_results cfg test_id) ?k ?w'] =>
      destruct (main_tail test_id w' _ eq_refl) as (fs & G3 & _)
  end.
  pose proof (grows_trans _ _ _ _ _ _ _ _ _
                (grows_then_log INFO _ _ _ _ _ _ G2) G3)
    as (_ & _ & Hcalls & Hsleeps & _).
  split.
  - exact Hcalls.
  - rewrite Hsleeps. apply app_nil_r.
Qed.

End Orchestration.

(** ** The paths on the sample data *)

Lemma get_first_agent_id_error_status_witness :
  fst (get_first_agent_id (B := Sample.builtins) Sample.ENV
         (Sample.fresh (Sample.always (Sample.plain 503)))) = Returned None.
Proof.
  rewrite (get_first_agent_id_error_status (B := Sample.builtins) Sample.ENV
             (Sample.fresh (Sample.always (Sample.plain 503)))
             (Sample.plain 503) eq_refl eq_refl).
  reflexivity.
Defined.

Lemma get_first_agent_id_first_agent_witness :
  let second := JObj [("agentId", JStr "11"); ("agentName", JStr "Tokyo")] in
  let body :=
    JObj [("agents",
           JArr [JObj [("agentId", JStr "3"); ("agentName", JStr "Singapore")];
                 second])] in
  fst (get_first_agent_id (B := Sample.builtins) Sample.ENV
         (Sample.fresh (Sample.always (Sample.success body))))
  = Returned (Some 3).
Proof.
  cbv zeta.
  erewrite (get_first_agent_id_first_agent (B := Sample.builtins) Sample.ENV
              _ _ _ _ (JStr "Singapore") (JStr "3") _ 3);
    reflexivity.
Defined.

Lemma get_first_agent_id_no_agents_witness :
  fst (get_first_agent_id (B := Sample.builtins) Sample.ENV
         (Sample.fresh
            (Sample.always (Sample.success (JObj [("total", JInt 0)])))))
  = Returned None.
Proof.
  erewrite (get_first_agent_id_no_agents (B := Sample.builtins) Sample.ENV
              _ _ [("total", JInt 0)] (JArr []));
    reflexivity.
Defined.

Lemma get_first_agent_id_agent_without_name_witness :
  fst (get_first_agent_id (B := Sample.builtins) Sample.ENV
         (Sample.fresh
            (Sample.always
               (Sample.success
                  (JObj [("agents", JArr [JObj [("agentId", JStr "3")]])])))))
  = Raised (KeyError "agentName").
Proof.
  erewrite (get_first_agent_id_agent_without_name (B := Sample.builtins)
              Sample.ENV _ _ _ [("agentId", JStr "3")] []);
    reflexivity.
Defined.

Lemma find_existing_test_id_error_status_witness :
  fst (find_existing_test_id (B := Sample.builtins) Sample.ENV
         "Cisco.com Test" (Sample.fresh (Sample.always (Sample.plain 401))))
  = Returned None.
Proof.
  rewrite (find_existing_test_id_error_status (B := Sample.builtins)
             Sample.ENV "Cisco.com Test"
             (Sample.fresh (Sample.always (Sample.plain 401)))
             (Sample.plain 401) eq_refl eq_refl).
  reflexivity.
Defined.

Lemma find_existing_test_id_match_without_id_witness :
  let tests :=
    [JObj [("testId", JStr "1"); ("testName", JStr "Other")];
     JObj [("testName", JStr "Cisco.com Test")];
     JObj [("testId", JStr "2"); ("testName", JStr "Cisco.com Test")]] in
  fst (find_existing_test_id (B := Sample.builtins) Sample.ENV
         "Cisco.com Test"
         (Sample.fresh
            (Sample.always (Sample.success (JObj [("tests", JArr tests)])))))
  = Raised (KeyError "testId").
Proof.
  cbv zeta.
  erewrite (find_existing_test_id_match_without_id (B := Sample.builtins)
              Sample.ENV "Cisco.com Test" _ _ _
              [JObj [("testId", JStr "1"); ("testName", JStr "Other")]]
              [JObj [("testId", JStr "2");
                     ("testName", JStr "Cisco.com Test")]]
              [("testName", JStr "Cisco.com Test")]);
    try reflexivity.
  repeat constructor.
Defined.

Lemma create_test_created_witness :
  let created :=
    {| status_code := 201; text := ""; headers := [];
       json_body := inr (JObj [("testId", JStr "6969142")]) |} in
  fst (create_test (B := Sample.builtins) Sample.ENV "Cisco.com Test"
         "https://cisco.com" 3 3600 (Sample.fresh (Sample.always created)))
  = Returned (Some 6969142).
Proof.
  cbv zeta.
  erewrite (create_test_created (B := Sample.builtins) Sample.ENV
              "Cisco.com Test" "https://cisco.com" 3 3600 _ _
              [("testId", JStr "6969142")] (JStr "6969142") 6969142);
    reflexivity.
Defined.

Lemma create_test_not_created_witness :
  fst (create_test (B := Sample.builtins) Sample.ENV "Cisco.com Test"
         "https://cisco.com" 3 3600
         (Sample.fresh
            (Sample.always
               (Sample.success (JObj [("testId", JStr "6969142")])))))
  = Returned None.
Proof.
  erewrite (create_test_not_created (B := Sample.builtins) Sample.ENV
              "Cisco.com Test" "https://cisco.com" 3 3600 _
              (Sample.success (JObj [("testId", JStr "6969142")])));
    [reflexivity | reflexivity | discriminate].
Defined.

Lemma get_test_results_success_witness :
  let w := Sample.fresh (Sample.always (Sample.plain 200)) in
  let run := get_test_results (B := Sample.builtins) Sample.ENV 6969142 w in
  fst run = Raised JSONDecodeError
  /\ log (snd run) =
       [(INFO, "Attempting to fetch test results for test ID: 6969142");
        (INFO, "Successfully fetched test results for test ID 6969142")].
Proof.
  cbv zeta.
  rewrite (get_test_results_success (B := Sample.builtins) Sample.ENV 6969142
             (Sample.fresh (Sample.always (Sample.plain 200)))
             (Sample.plain 200) eq_refl eq_refl).
  split; reflexivity.
Defined.

Lemma get_test_results_error_status_witness :
  fst (get_test_results (B := Sample.builtins) Sample.ENV 9999999
         (Sample.fresh (Sample.always (Sample.plain 404))))
  = Returned JNull.
Proof.
  rewrite (get_test_results_error_status (B := Sample.builtins) Sample.ENV
             9999999 (Sample.fresh (Sample.always (Sample.plain 404)))
             (Sample.plain 404) eq_refl eq_refl).
  reflexivity.
Defined.

Lemma analyze_results_no_entries_witness :
  let w := Sample.fresh (Sample.always (Sample.plain 200)) in
  let run := analyze_results (B := Sample.builtins) Sample.ENV
               (JObj [("test", JStr "Cisco.com Test")]) w in
  fst run = Returned tt
  /\ log (snd run) =
       [(INFO, "Analyzing test results.");
        (WARNING, "No HTTP Server test results available for analysis.")].
Proof.
  cbv zeta.
  rewrite (analyze_results_no_entries (B := Sample.builtins) Sample.ENV
             [("test", JStr "Cisco.com Test")] (JArr [])
             (Sample.fresh (Sample.always (Sample.plain 200)))
             eq_refl eq_refl).
  split; reflexivity.
Defined.

Lemma analyze_results_required_fields_witness :
  let agent := [("agentId", JStr "3"); ("agentName", JStr "Singapore")] in
  let result :=
    [("agent", JObj agent); ("date", JStr "2025-04-10T15:20:39Z")] in
  let w := Sample.fresh (Sample.always (Sample.plain 200)) in
  exists output,
    analyze_results (B := Sample.builtins) Sample.ENV
      (JObj [("results", JArr [JObj result])]) w =
      (Returned tt,
       add_log INFO output (add_log INFO "Analyzing test results." w)).
Proof.
  cbv zeta.
  apply (analyze_results_required_fields (B := Sample.builtins) Sample.ENV
           [("results",
             JArr [JObj [("agent",
                          JObj [("agentId", JStr "3");
                                ("agentName", JStr "Singapore")]);
                         ("date", JStr "2025-04-10T15:20:39Z")]])]
           [("agent",
             JObj [("agentId", JStr "3"); ("agentName", JStr "Singapore")]);
            ("date", JStr "2025-04-10T15:20:39Z")]
           [("agentId", JStr "3"); ("agentName", JStr "Singapore")]
           [] (JStr "Singapore") (JStr "3") (JStr "2025-04-10T15:20:39Z")
           (JInt 0) "0.0000");
    reflexivity.
Defined.

Lemma analyze_results_entry_without_agent_witness :
  fst (analyze_results (B := Sample.builtins) Sample.ENV
         (JObj [("results", JArr [JObj [("responseCode", JInt 200)]])])
         (Sample.fresh (Sample.always (Sample.plain 200))))
  = Raised (KeyError "agent").
Proof.
  erewrite (analyze_results_entry_without_agent (B := Sample.builtins)
              Sample.ENV _ [("responseCode", JInt 200)] []);
    reflexivity.
Defined.

Lemma save_report_written_witness :
  files (snd (save_report (B := Sample.builtins) "Cisco.com Test" (JInt 7)
                (Sample.fresh (Sample.always (Sample.plain 200)))))
  = [("Cisco.com Test_report.json", "7")].
Proof.
  destruct (save_report_written (B := Sample.builtins) "Cisco.com Test"
              (JInt 7) (Sample.fresh (Sample.always (Sample.plain 200)))
              eq_refl) as (_ & Hfiles & _).
  rewrite Hfiles. reflexivity.
Defined.

Lemma main_exits_without_agent_witness :
  let w := Sample.fresh (Sample.always (Sample.plain 500)) in
  fst (main (B := Sample.builtins) Sample.ENV w) = Returned (Exit 1)
  /\ length (calls (snd (main (B := Sample.builtins) Sample.ENV w))) = 1%nat.
Proof.
  cbv zeta.
  destruct (main_exits_without_agent (B := Sample.builtins) Sample.ENV
              (Sample.fresh (Sample.always (Sample.plain 500))) _ eq_refl)
    as [Hmain Hcalls].
  rewrite Hmain. split; reflexivity.
Defined.

Lemma main_existing_test_fetched_at_once_witness :
  let w := Sample.fresh
             (Sample.scripted
                [Sample.success Sample.AGENT_DATA;
                 Sample.success Sample.TESTS_DATA;
                 Sample.success (JObj [("results", JArr [Sample.RESULT])])])
  in
  map req_url (calls (snd (main (B := Sample.builtins) Sample.ENV w))) =
    ["https://api.thousandeyes.com/v7/agents";
     "https://api.thousandeyes.com/v7/tests/http-server";
     "https://api.thousandeyes.com/v7/test-results/6969142/http-server"]
  /\ sleeps (snd (main (B := Sample.builtins) Sample.ENV w)) = [].
Proof.
  cbv zeta.
  destruct (main_existing_test_fetched_at_once (B := Sample.builtins)
              Sample.ENV
              (Sample.fresh
                 (Sample.scripted
                    [Sample.success Sample.AGENT_DATA;
                     Sample.success Sample.TESTS_DATA;
                     Sample.success
                       (JObj [("results", JArr [Sample.RESULT])])]))
              _ _ 3 6969142 eq_refl eq_refl) as [Hcalls Hsleeps].
  rewrite Hcalls, Hsleeps. split; reflexivity.
Defined.
